(** * geoip2: the request/response pipeline of the MaxMind GeoIP2 client

    A shallow embedding of [geoip2.go] (package [geoip2]) and the
    properties of its lookup pipeline.

    The Go file depends on three kinds of things that are not part of it:
    - the standard library ([net/http], [net/url], [encoding/json],
      [io/ioutil], [context]);
    - the declarations of the package's own types [Response] and [Error],
      which live in another file of the package;
    - the transport, a function value stored in the client.

    The first two are collected in the class [Externals]; every function of
    [geoip2.go] is defined over an arbitrary instance of it.  The module
    [Mem] gives one instance (in-memory bodies, a JSON reader) on which
    the pipeline can be run. *)

From Stdlib Require Import String Ascii List ZArith NArith Bool Lia.
Import ListNotations.

Local Open Scope string_scope.
Local Open Scope Z_scope.

Set Implicit Arguments.

(** ** Values of the Go runtime *)

(** [context.Context] is an interface: a value of it is either [nil] or one
    of the implementations of package [context].  [backgroundCtx] is the
    value returned by [context.Background()]: it is never cancelled and has
    no deadline.  [cancelCtx] stands for the contexts derived with
    [WithCancel], [WithDeadline] and [WithTimeout]. *)
Inductive ContextImpl : Type :=
| backgroundCtx : ContextImpl
| cancelCtx (parent : ContextImpl) (id : nat) : ContextImpl.

Definition Context : Type := option ContextImpl.

Definition nilContext : Context := None.

Definition context_Background : Context := Some backgroundCtx.

Definition cancellable (c : ContextImpl) : bool :=
  match c with
  | backgroundCtx => false
  | cancelCtx _ _ => true
  end.

(** [*http.Request], reduced to what [fetch] sets: the method, the target
    the request was created for, and the header lines in the order in which
    they were set. *)
Record Request : Type := mkRequest {
  Method : string;
  URL : string;
  Header : list (string * string)
}.

(** [http.Response] over a body stream of type [B].  A response has a body
    here: a non-nil response whose [Body] is nil, which a transport could
    make by hand and on which line 89 panics, is not among these values. *)
Record HttpResponse (B : Type) : Type := mkHttpResponse {
  StatusCode : Z;
  Body : B
}.

(** The fields of the package's [Error] struct that [fetch] touches. *)
Record Error : Type := mkError {
  HTTPStatus : Z;
  Err : string
}.

(** Go's [error] interface, by the dynamic types that reach [fetch]:
    errors made by the libraries (URL parsing, the transport, body reads,
    JSON decoding), the value built by [fmt.Errorf], and the package's
    [Error] struct returned as an [error]. *)
Inductive error : Type :=
| libError (text : string)
| errorString (text : string)
| serviceError (v : Error).

(** A Go [(x, err)] pair with a nilable [err]. *)
Definition errOr (A : Type) : Type := (A * option error)%type.

(** What a transport hands back: a response pointer and an error, both
    nilable. *)
Definition TransportResult (B : Type) : Type :=
  (option (HttpResponse B) * option error)%type.

(** ** What [geoip2.go] takes from outside *)

Class Externals : Type := {
  (** the body stream of an HTTP response ([io.ReadCloser]) *)
  BodyT : Type;
  (** the package's [Response] struct and its zero value [Response{}] *)
  Response : Type;
  Response_zero : Response;
  (** the [Error()] method of the package's [Error] struct *)
  Error_Error : Error -> string;
  (** [*http.Client], [http.DefaultClient] and the method [Do] *)
  Client : Type;
  http_DefaultClient : Client;
  Client_Do : Client -> Request -> TransportResult BodyT;
  (** the failure of [url.Parse] on a target, [None] when it parses *)
  url_Parse_error : string -> option error;
  (** [ioutil.ReadAll] on a body stream *)
  ioutil_ReadAll : BodyT -> errOr string;
  (** [json.NewDecoder(bytes.NewBuffer(buf)).Decode(&v)] for [v : Error]:
      the value left in [v], and the error *)
  json_Decode_Error : string -> Error -> errOr Error;
  (** Modelled from the spec: the declaration of [Error] is not in
      [geoip2.go].  The spec has the error carry "the decoded fields plus
      the HTTP status": [HTTPStatus] is bound to no JSON key, so decoding
      never writes it. *)
  json_Decode_Error_HTTPStatus :
    forall buf v, HTTPStatus (fst (json_Decode_Error buf v)) = HTTPStatus v;
  (** [json.NewDecoder(body).Decode(&response)] for [response : Response]
      works in two steps.  [Decoder.readValue] reads one JSON value off the
      stream and checks it; it fails on a read error and on text that is not
      JSON.  [unmarshal] then stores the value into the target; it can fail on
      a value that does not fit the target, after it wrote part of it. *)
  JsonValue : Type;
  json_readValue : BodyT -> JsonValue + error;
  json_unmarshal_Response : JsonValue -> Response -> errOr Response
}.

(** [Decode] returns the error of [readValue] before it touches the target. *)
Definition json_Decode_Response {X : Externals} (body : BodyT) (target : Response)
  : errOr Response :=
  match json_readValue body with
  | inr err => (target, Some err)
  | inl v => json_unmarshal_Response v target
  end.

(** ** [encoding/base64]

    [base64.StdEncoding.EncodeToString], as [SetBasicAuth] uses it: three
    bytes are packed into a 24-bit value and cut into four 6-bit digits;
    a last group of one or two bytes is padded with ['=']. *)

Definition encodeStd : string :=
  "ABCDEFGHIJKLMNOPQRSTUVWXYZabcdefghijklmnopqrstuvwxyz0123456789+/".

Definition enc (i : N) : ascii :=
  match String.get (N.to_nat i) encodeStd with
  | Some c => c
  | None => "="%char
  end.

Definition sextet (val : N) (shift : N) : ascii :=
  enc (N.land (N.shiftr val shift) 63).

Fixpoint base64_EncodeToString (src : string) : string :=
  match src with
  | EmptyString => EmptyString
  | String a EmptyString =>
      let val := N.shiftl (N_of_ascii a) 16 in
      String (sextet val 18) (String (sextet val 12)
        (String "="%char (String "="%char EmptyString)))
  | String a (String b EmptyString) =>
      let val := N.lor (N.shiftl (N_of_ascii a) 16) (N.shiftl (N_of_ascii b) 8) in
      String (sextet val 18) (String (sextet val 12)
        (String (sextet val 6) (String "="%char EmptyString)))
  | String a (String b (String c rest)) =>
      let val := N.lor (N.lor (N.shiftl (N_of_ascii a) 16)
                              (N.shiftl (N_of_ascii b) 8)) (N_of_ascii c) in
      String (sextet val 18) (String (sextet val 12)
        (String (sextet val 6) (String (sextet val 0)
          (base64_EncodeToString rest))))
  end.

(** [base64.StdEncoding.DecodeString], which the service applies to the
    header: four digits make a 24-bit value that is cut into three bytes;
    padding may only end the text.  (Line breaks, which Go skips, are
    refused here.) *)

(** position of [c] in the alphabet *)
Fixpoint indexOf (c : ascii) (alphabet : string) : option N :=
  match alphabet with
  | EmptyString => None
  | String x r =>
      if Ascii.eqb c x then Some 0%N
      else option_map N.succ (indexOf c r)
  end.

Definition decodeMap (c : ascii) : option N := indexOf c encodeStd.

Definition byte (n : N) : ascii := ascii_of_N (N.land n 255).

Definition quantum (d0 d1 d2 d3 : N) : N :=
  N.lor (N.lor (N.lor (N.shiftl d0 18) (N.shiftl d1 12)) (N.shiftl d2 6)) d3.

Fixpoint base64_DecodeString (s : string) : option string :=
  match s with
  | EmptyString => Some EmptyString
  | String c0 (String c1 (String c2 (String c3 rest))) =>
      match decodeMap c0, decodeMap c1 with
      | Some d0, Some d1 =>
          if Ascii.eqb c2 "=" then
            if Ascii.eqb c3 "=" then
              match rest with
              | EmptyString =>
                  let val := quantum d0 d1 0 0 in
                  Some (String (byte (N.shiftr val 16)) EmptyString)
              | _ => None
              end
            else None
          else
            match decodeMap c2 with
            | None => None
            | Some d2 =>
                if Ascii.eqb c3 "=" then
                  match rest with
                  | EmptyString =>
                      let val := quantum d0 d1 d2 0 in
                      Some (String (byte (N.shiftr val 16))
                              (String (byte (N.shiftr val 8)) EmptyString))
                  | _ => None
                  end
                else
                  match decodeMap c3 with
                  | None => None
                  | Some d3 =>
                      let val := quantum d0 d1 d2 d3 in
                      match base64_DecodeString rest with
                      | None => None
                      | Some out =>
                          Some (String (byte (N.shiftr val 16))
                                  (String (byte (N.shiftr val 8))
                                     (String (byte val) out)))
                      end
                  end
            end
      | _, _ => None
      end
  | _ => None
  end.

Section Pipeline.

Context {X : Externals}.

(** The method [Error()] of an [error] value, as [%v] and [%s] print it. *)
Definition error_text (e : error) : string :=
  match e with
  | libError t => t
  | errorString t => t
  | serviceError v => Error_Error v
  end.

(** [fmt.Errorf] returns an error whose text is the formatted string. *)
Definition fmt_Errorf (formatted : string) : error := errorString formatted.

(** [http.NewRequest(method, url, nil)]: the target is parsed; a target that
    does not parse is the only failure for the method ["GET"]. *)
Definition http_NewRequest (method url : string) : Request + error :=
  match url_Parse_error url with
  | Some err => inr err
  | None => inl (mkRequest method url [])
  end.

(** [req.SetBasicAuth(username, password)] sets the header [Authorization]
    to ["Basic "] followed by the base64 text of [username:password]. *)
Definition basicAuth (username password : string) : string :=
  base64_EncodeToString (username ++ ":" ++ password).

Definition header_Set (h : list (string * string)) (key value : string)
  : list (string * string) :=
  (key, value) :: filter (fun kv => negb (String.eqb (fst kv) key)) h.

Definition SetBasicAuth (req : Request) (username password : string) : Request :=
  mkRequest (Method req) (URL req)
    (header_Set (Header req) "Authorization"
       ("Basic " ++ basicAuth username password)).

(** ** The client *)

Definition CtxFunc : Type := Context -> Request -> TransportResult BodyT.

(** The struct [Api].  A field of function type is nilable: the literal
    in [New] leaves [doFunc] nil. *)
Record Api : Type := mkApi {
  doFunc : option CtxFunc;
  userId : string;
  licenseKey : string
}.

(** [wrap]: the blocking [Do] as a transport; the context is dropped. *)
Definition wrap (doFunc : Request -> TransportResult BodyT) : CtxFunc :=
  fun ctx req => doFunc req.

(** ** The pipeline *)

(** How a call ends: it returns [(Response, error)], or it panics (a nil
    pointer is dereferenced). *)
Inductive Outcome : Type :=
| Return (response : Response) (err : option error)
| Panic.

Definition countryPrefix : string := "https://geoip.maxmind.com/geoip/v2.1/country/".
Definition cityPrefix : string := "https://geoip.maxmind.com/geoip/v2.1/city/".
Definition insightsPrefix : string := "https://geoip.maxmind.com/geoip/v2.1/insights/".

(** Lines 72-79: the request is built and authorized. *)
Definition buildRequest (a : Api) (prefix ipAddress : string) : Request + error :=
  match http_NewRequest "GET" (prefix ++ ipAddress) with
  | inr err => inr err
  | inl req => inl (SetBasicAuth req (userId a) (licenseKey a))
  end.

(** Lines 82-84: a nil context is replaced by the background context. *)
Definition orBackground (ctx : Context) : Context :=
  match ctx with
  | None => context_Background
  | Some _ => ctx
  end.

(** Lines 93-112: the body of an answer with a status in [400, 600). *)
Definition errorAnswer (resp : HttpResponse BodyT) : Outcome :=
  match ioutil_ReadAll (Body resp) with
  | (_, Some err) => Return Response_zero (Some err)
  | (buf, None) =>
      let respContent := buf in
      let v := mkError (StatusCode resp) "" in
      match json_Decode_Error buf v with
      | (v, Some _) =>
          let v := mkError (HTTPStatus v)
                     ("Error parsing error response as JSON: " ++ respContent) in
          Return Response_zero (Some (serviceError v))
      | (v, None) => Return Response_zero (Some (serviceError v))
      end
  end.

(** Lines 116-121: the body of any other answer. *)
Definition successAnswer (resp : HttpResponse BodyT) : Outcome :=
  match json_Decode_Response (Body resp) Response_zero with
  | (response, Some err) =>
      Return response
        (Some (fmt_Errorf ("Error parsing response as JSON: " ++ error_text err)))
  | (response, None) => Return response None
  end.

(** Lines 86-121: what [fetch] does with the transport's result.  With a
    nil response and a nil error, taking [resp.Body] for the deferred
    [Close] panics.  The deferred [Close] itself has no part in what is
    returned. *)
Definition classify (r : TransportResult BodyT) : Outcome :=
  match r with
  | (_, Some err) => Return Response_zero (Some err)
  | (None, None) => Panic
  | (Some resp, None) =>
      if (400 <=? StatusCode resp) && (StatusCode resp <? 600)
      then errorAnswer resp
      else successAnswer resp
  end.

Definition fetch (a : Api) (ctx : Context) (prefix ipAddress : string) : Outcome :=
  match buildRequest a prefix ipAddress with
  | inr err => Return Response_zero (Some err)
  | inl req =>
      let ctx := orBackground ctx in
      match doFunc a with
      | None => Panic
      | Some do => classify (do ctx req)
      end
  end.

Definition Country (a : Api) (ctx : Context) (ipAddress : string) : Outcome :=
  fetch a ctx countryPrefix ipAddress.

Definition City (a : Api) (ctx : Context) (ipAddress : string) : Outcome :=
  fetch a ctx cityPrefix ipAddress.

Definition Insights (a : Api) (ctx : Context) (ipAddress : string) : Outcome :=
  fetch a ctx insightsPrefix ipAddress.

(** ** Clients behind pointers

    The constructors take and return [*Api].  The heap is the list of the
    [Api] structs allocated so far; a pointer is [nil] or an index into it.
    A constructor is a function on heaps; [None] is a panic. *)

Definition Heap : Type := list Api.

Definition ApiPtr : Type := option nat.

Definition deref (h : Heap) (p : ApiPtr) : option Api :=
  match p with
  | None => None
  | Some l => nth_error h l
  end.

(** [&Api{...}]: a fresh struct, and the pointer to it. *)
Definition alloc (s : Api) (h : Heap) : ApiPtr * Heap :=
  (Some (length h), (h ++ [s])%list).

Definition WithClientFunc (api : ApiPtr) (ctxFunc : option CtxFunc) (h : Heap)
  : option (ApiPtr * Heap) :=
  match deref h api with
  | None => None
  | Some s => Some (alloc (mkApi ctxFunc (userId s) (licenseKey s)) h)
  end.

Definition WithClient (api : ApiPtr) (client : Client) (h : Heap)
  : option (ApiPtr * Heap) :=
  WithClientFunc api (Some (wrap (Client_Do client))) h.

Definition New (userId licenseKey : string) (h : Heap) : option (ApiPtr * Heap) :=
  let (api, h) := alloc (mkApi None userId licenseKey) h in
  WithClient api http_DefaultClient h.

(** A method called through a pointer.  [fetch] reads its receiver for the
    first time on line 79, after the request was created. *)
Definition fetchAt (h : Heap) (a : ApiPtr) (ctx : Context)
    (prefix ipAddress : string) : Outcome :=
  match deref h a with
  | Some s => fetch s ctx prefix ipAddress
  | None =>
      match http_NewRequest "GET" (prefix ++ ipAddress) with
      | inr err => Return Response_zero (Some err)
      | inl _ => Panic
      end
  end.

(** ** The vocabulary of the properties *)

(** On the call [fetch a ctx prefix ipAddress] the request is built, the
    client has a transport, and the transport hands back [r]. *)
Definition transportGives (a : Api) (ctx : Context) (prefix ipAddress : string)
    (r : TransportResult BodyT) : Prop :=
  exists req do,
    buildRequest a prefix ipAddress = inl req /\
    doFunc a = Some do /\
    do (orBackground ctx) req = r.




(** What deriving a client from [api] with the transport [f] does to the
    heap [h]: one struct is added, at a pointer [p] no client had; it has
    the credentials of the base and the transport [f]; every struct of [h],
    the base among them, is as it was; and a lookup through any client of
    [h] ends as it did. *)
Definition derives (h : Heap) (api : ApiPtr) (s : Api) (f : option CtxFunc)
    (p : ApiPtr) (h' : Heap) : Prop :=
  p <> api /\
  deref h p = None /\
  deref h' p = Some (mkApi f (userId s) (licenseKey s)) /\
  deref h' api = Some s /\
  (forall q s', deref h q = Some s' -> deref h' q = Some s') /\
  (forall q s' ctx prefix ipAddress,
     deref h q = Some s' ->
     fetchAt h' q ctx prefix ipAddress = fetchAt h q ctx prefix ipAddress).

End Pipeline.


(** * An instance of the externals: in-memory bodies and a JSON reader

    Bodies are strings held in memory (what a test transport returns with
    [ioutil.NopCloser(strings.NewReader(s))]), so reading them never fails.
    [Json] reads the first JSON value of a text the way [Decoder.Decode]
    does: leading white space is skipped, the value is checked and read,
    what follows it is left alone. *)

Module Json.

Local Open Scope N_scope.

#[local] Unset Elimination Schemes.

Inductive value : Type :=
| Null
| Bool (b : bool)
| Number (literal : string)
| Str (s : string)
| Array (elements : list value)
| Object (members : list (string * value)).

#[local] Set Elimination Schemes.

Definition dquote : ascii := ascii_of_N 34.
Definition backslash : ascii := ascii_of_N 92.

Definition isSpace (c : ascii) : bool :=
  let n := N_of_ascii c in
  (n =? 32) || (n =? 9) || (n =? 10) || (n =? 13).

Definition isDigit (c : ascii) : bool :=
  let n := N_of_ascii c in (48 <=? n) && (n <=? 57).

Fixpoint skipSpace (s : string) : string :=
  match s with
  | String c r => if isSpace c then skipSpace r else s
  | EmptyString => s
  end.

Fixpoint stripPrefix (p s : string) : option string :=
  match p, s with
  | EmptyString, _ => Some s
  | String a p', String b s' => if Ascii.eqb a b then stripPrefix p' s' else None
  | String _ _, EmptyString => None
  end.

(** the longest run of digits at the head of [s], and the rest *)
Fixpoint spanDigits (s : string) : string * string :=
  match s with
  | String c r =>
      if isDigit c then let (ds, r') := spanDigits r in (String c ds, r')
      else (EmptyString, s)
  | EmptyString => (EmptyString, s)
  end.

(** A number literal: an optional minus, an integer part (a single zero, or
    a non-zero digit and further digits), an optional fraction (a dot and
    at least one digit), an optional exponent (e or E, an optional sign, at
    least one digit). *)
Definition scanInt (s : string) : option (string * string) :=
  match s with
  | String c r =>
      if Ascii.eqb c "0" then Some (String c EmptyString, r)
      else if isDigit c then
        let (ds, r') := spanDigits r in Some (String c ds, r')
      else None
  | EmptyString => None
  end.

Definition scanFrac (s : string) : option (string * string) :=
  match s with
  | String c r =>
      if Ascii.eqb c "." then
        match spanDigits r with
        | (EmptyString, _) => None
        | (ds, r') => Some (String c ds, r')
        end
      else Some (EmptyString, s)
  | EmptyString => Some (EmptyString, s)
  end.

Definition scanSign (s : string) : string * string :=
  match s with
  | String c r =>
      if Ascii.eqb c "+" || Ascii.eqb c "-" then (String c EmptyString, r)
      else (EmptyString, s)
  | EmptyString => (EmptyString, s)
  end.

Definition scanExp (s : string) : option (string * string) :=
  match s with
  | String c r =>
      if Ascii.eqb c "e" || Ascii.eqb c "E" then
        let (sg, r1) := scanSign r in
        match spanDigits r1 with
        | (EmptyString, _) => None
        | (ds, r') => Some (String c (sg ++ ds)%string, r')
        end
      else Some (EmptyString, s)
  | EmptyString => Some (EmptyString, s)
  end.

Definition scanNumber (s : string) : option (string * string) :=
  let (minus, s0) :=
    match s with
    | String c r => if Ascii.eqb c "-" then (String c EmptyString, r)
                    else (EmptyString, s)
    | EmptyString => (EmptyString, s)
    end in
  match scanInt s0 with
  | None => None
  | Some (i, s1) =>
      match scanFrac s1 with
      | None => None
      | Some (f, s2) =>
          match scanExp s2 with
          | None => None
          | Some (e, s3) => Some ((minus ++ i ++ f ++ e)%string, s3)
          end
      end
  end.

Definition hexVal (c : ascii) : option N :=
  let n := N_of_ascii c in
  if (48 <=? n) && (n <=? 57) then Some (n - 48)
  else if (97 <=? n) && (n <=? 102) then Some (n - 87)
  else if (65 <=? n) && (n <=? 70) then Some (n - 55)
  else None.

(** the four hex digits of a [\u] escape *)
Definition getu4 (s : string) : option (N * string) :=
  match s with
  | String a (String b (String c (String d r))) =>
      match hexVal a, hexVal b, hexVal c, hexVal d with
      | Some x, Some y, Some z, Some w => Some (((x * 16 + y) * 16 + z) * 16 + w, r)
      | _, _, _, _ => None
      end
  | _ => None
  end.

Definition bytes (l : list N) : string :=
  fold_right (fun n s => String (ascii_of_N n) s) EmptyString l.

Definition utf8 (r : N) : string :=
  if r <? 128 then bytes [r]
  else if r <? 2048 then bytes [192 + r / 64; 128 + r mod 64]
  else if r <? 65536 then
    bytes [224 + r / 4096; 128 + (r / 64) mod 64; 128 + r mod 64]
  else
    bytes [240 + r / 262144; 128 + (r / 4096) mod 64;
           128 + (r / 64) mod 64; 128 + r mod 64].

Definition replacementChar : N := 65533.

Definition isSurrogate (r : N) : bool := (55296 <=? r) && (r <? 57344).

(** [utf16.DecodeRune] *)
Definition decodeRune (r1 r2 : N) : N :=
  if (55296 <=? r1) && (r1 <? 56320) && (56320 <=? r2) && (r2 <? 57344)
  then (r1 - 55296) * 1024 + (r2 - 56320) + 65536
  else replacementChar.

Definition unescape (c : ascii) : option ascii :=
  if Ascii.eqb c dquote then Some dquote
  else if Ascii.eqb c backslash then Some backslash
  else if Ascii.eqb c "/" then Some "/"%char
  else if Ascii.eqb c "b" then Some (ascii_of_N 8)
  else if Ascii.eqb c "f" then Some (ascii_of_N 12)
  else if Ascii.eqb c "n" then Some (ascii_of_N 10)
  else if Ascii.eqb c "r" then Some (ascii_of_N 13)
  else if Ascii.eqb c "t" then Some (ascii_of_N 9)
  else None.

(** a second [\u] escape right after a surrogate *)
Definition nextU4 (s : string) : option (N * string) :=
  match s with
  | String a (String b r) =>
      if Ascii.eqb a backslash && Ascii.eqb b "u" then getu4 r else None
  | _ => None
  end.

(** The text of a string literal after its opening quote, and what follows
    the closing quote. *)
Fixpoint scanString (fuel : nat) (s : string) : option (string * string) :=
  match fuel with
  | O => None
  | S fuel =>
      match s with
      | EmptyString => None
      | String c r =>
          if Ascii.eqb c dquote then Some (EmptyString, r)
          else if Ascii.eqb c backslash then
            match r with
            | EmptyString => None
            | String e r1 =>
                if Ascii.eqb e "u" then
                  match getu4 r1 with
                  | None => None
                  | Some (rr, r2) =>
                      let (rune, r3) :=
                        if isSurrogate rr then
                          match nextU4 r2 with
                          | Some (rr1, r3) =>
                              if decodeRune rr rr1 =? replacementChar
                              then (replacementChar, r2)
                              else (decodeRune rr rr1, r3)
                          | None => (replacementChar, r2)
                          end
                        else (rr, r2) in
                      match scanString fuel r3 with
                      | Some (t, rest) => Some ((utf8 rune ++ t)%string, rest)
                      | None => None
                      end
                  end
                else
                  match unescape e with
                  | None => None
                  | Some c' =>
                      match scanString fuel r1 with
                      | Some (t, rest) => Some (String c' t, rest)
                      | None => None
                      end
                  end
            end
          else if N_of_ascii c <? 32 then None
          else
            match scanString fuel r with
            | Some (t, rest) => Some (String c t, rest)
            | None => None
            end
      end
  end.

Definition scanQuoted (s : string) : option (string * string) :=
  scanString (S (String.length s)) s.

(** One JSON value at the head of [s] (after white space), and the rest.
    [parseElements] reads the elements of an array after its first
    bracket, [parseMembers] the members of an object after its brace, each
    up to and including the closing one. *)
Fixpoint parseValue (fuel : nat) (s : string) : option (value * string) :=
  match fuel with
  | O => None
  | S fuel =>
      match skipSpace s with
      | EmptyString => None
      | String c r as s0 =>
          if Ascii.eqb c "{" then
            match skipSpace r with
            | String c1 r1 as s1 =>
                if Ascii.eqb c1 "}" then Some (Object [], r1)
                else match parseMembers fuel s1 with
                     | Some (ms, rest) => Some (Object ms, rest)
                     | None => None
                     end
            | EmptyString => None
            end
          else if Ascii.eqb c "[" then
            match skipSpace r with
            | String c1 r1 as s1 =>
                if Ascii.eqb c1 "]" then Some (Array [], r1)
                else match parseElements fuel s1 with
                     | Some (vs, rest) => Some (Array vs, rest)
                     | None => None
                     end
            | EmptyString => None
            end
          else if Ascii.eqb c dquote then
            match scanQuoted r with
            | Some (t, rest) => Some (Str t, rest)
            | None => None
            end
          else if Ascii.eqb c "t" then
            match stripPrefix "true" s0 with
            | Some rest => Some (Bool true, rest)
            | None => None
            end
          else if Ascii.eqb c "f" then
            match stripPrefix "false" s0 with
            | Some rest => Some (Bool false, rest)
            | None => None
            end
          else if Ascii.eqb c "n" then
            match stripPrefix "null" s0 with
            | Some rest => Some (Null, rest)
            | None => None
            end
          else
            match scanNumber s0 with
            | Some (lit, rest) => Some (Number lit, rest)
            | None => None
            end
      end
  end
with parseElements (fuel : nat) (s : string) : option (list value * string) :=
  match fuel with
  | O => None
  | S fuel =>
      match parseValue fuel s with
      | None => None
      | Some (v, r) =>
          match skipSpace r with
          | String c r1 =>
              if Ascii.eqb c "," then
                match parseElements fuel r1 with
                | Some (vs, rest) => Some (v :: vs, rest)
                | None => None
                end
              else if Ascii.eqb c "]" then Some ([v], r1)
              else None
          | EmptyString => None
          end
      end
  end
with parseMembers (fuel : nat) (s : string)
  : option (list (string * value) * string) :=
  match fuel with
  | O => None
  | S fuel =>
      match skipSpace s with
      | String q r =>
          if Ascii.eqb q dquote then
            match scanQuoted r with
            | None => None
            | Some (key, r0) =>
                match skipSpace r0 with
                | String colon r1 =>
                    if Ascii.eqb colon ":" then
                      match parseValue fuel r1 with
                      | None => None
                      | Some (v, r2) =>
                          match skipSpace r2 with
                          | String c r3 =>
                              if Ascii.eqb c "," then
                                match parseMembers fuel r3 with
                                | Some (ms, rest) => Some ((key, v) :: ms, rest)
                                | None => None
                                end
                              else if Ascii.eqb c "}" then Some ([(key, v)], r3)
                              else None
                          | EmptyString => None
                          end
                      end
                    else None
                | EmptyString => None
                end
            end
          else None
      | EmptyString => None
      end
  end.

(** Every call of the three readers consumes a character or is followed by
    one that does, so twice the length of the text is fuel enough. *)
Definition parse (s : string) : option value :=
  match parseValue (2 * String.length s + 2) s with
  | Some (v, _) => Some v
  | None => None
  end.

(** The text of the error [Decoder.Decode] returns for a text [parse]
    refuses.  The two commonest are exact: no value at all, and a first
    character that cannot begin a value.  Every other syntax error reads
    ["invalid JSON"] here. *)
Definition beginsValue (c : ascii) : bool :=
  Ascii.eqb c "{" || Ascii.eqb c "[" || Ascii.eqb c dquote || Ascii.eqb c "-"
  || isDigit c || Ascii.eqb c "t" || Ascii.eqb c "f" || Ascii.eqb c "n".

Definition quoteChar (c : ascii) : string :=
  if Ascii.eqb c "'" then String "'" (String backslash (String "'" (String "'" EmptyString)))
  else String "'" (String c (String "'" EmptyString)).

Definition syntaxError (s : string) : string :=
  match skipSpace s with
  | EmptyString => "EOF"
  | String c _ =>
      if beginsValue c then "invalid JSON"
      else ("invalid character " ++ quoteChar c ++ " looking for beginning of value")%string
  end.

Definition kind (v : value) : string :=
  match v with
  | Null => "null"
  | Bool _ => "bool"
  | Number _ => "number"
  | Str _ => "string"
  | Array _ => "array"
  | Object _ => "object"
  end.

(** [strings.ToLower] on ASCII letters: field names match keys without
    regard to case. *)
Definition lowerChar (c : ascii) : ascii :=
  let n := N_of_ascii c in
  if (65 <=? n) && (n <=? 90) then ascii_of_N (n + 32) else c.

Fixpoint lower (s : string) : string :=
  match s with
  | EmptyString => EmptyString
  | String c r => String (lowerChar c) (lower r)
  end.

Definition keyIs (name key : string) : bool :=
  String.eqb (lower key) (lower name).

End Json.

Module Mem.

(** Modelled from the spec: the declaration of [Response] is not in
    [geoip2.go].  The spec treats it as "a pass-through JSON document
    holder": here it holds the members of the decoded document, and
    [Response{}] holds none. *)
Definition Document : Type := list (string * Json.value).

Definition noDocument : Document := [].

Definition setField (doc : Document) (kv : string * Json.value) : Document :=
  kv :: filter (fun old => negb (String.eqb (fst old) (fst kv))) doc.

(** [Unmarshal] into a struct: [null] changes nothing, an object sets the
    fields it names, any other value is a type error and changes nothing. *)
Definition unmarshal_Response (j : Json.value) (target : Document) : errOr Document :=
  match j with
  | Json.Null => (target, None)
  | Json.Object members => (fold_left setField members target, None)
  | _ => (target,
          Some (libError ("json: cannot unmarshal " ++ Json.kind j
                          ++ " into Go value of type geoip2.Response")))
  end.

(** Modelled from the spec: the declaration of [Error] and its field tags
    are not in [geoip2.go].  The spec has the error body carry "a status
    and a message field; the message field is read as the primary
    diagnostic content", and the error carry "the decoded fields plus the
    HTTP status": the key [message] is bound to [Err], and [HTTPStatus] is
    bound to no key.  A member of the wrong type is a type error; the
    decoder keeps the first such error and goes on. *)
Definition setErrorField (acc : errOr Error) (kv : string * Json.value) : errOr Error :=
  let (v, err) := acc in
  if Json.keyIs "message" (fst kv) then
    match snd kv with
    | Json.Str s => (mkError (HTTPStatus v) s, err)
    | Json.Null => (v, err)
    | other =>
        (v, match err with
            | Some _ => err
            | None =>
                Some (libError ("json: cannot unmarshal " ++ Json.kind other
                       ++ " into Go struct field Error.message of type string"))
            end)
    end
  else (v, err).

Definition unmarshal_Error (j : Json.value) (target : Error) : errOr Error :=
  match j with
  | Json.Null => (target, None)
  | Json.Object members => fold_left setErrorField members (target, None)
  | _ => (target,
          Some (libError ("json: cannot unmarshal " ++ Json.kind j
                          ++ " into Go value of type geoip2.Error")))
  end.

(** [Decoder.Decode]: the text is checked first, and a text that is not
    JSON leaves the target as it was. *)
Definition decode {A : Type} (unmarshal : Json.value -> A -> errOr A)
    (text : string) (target : A) : errOr A :=
  match Json.parse text with
  | None => (target, Some (libError (Json.syntaxError text)))
  | Some j => unmarshal j target
  end.

(** [Decoder.readValue] on a text held in memory. *)
Definition readText (text : string) : Json.value + error :=
  match Json.parse text with
  | None => inr (libError (Json.syntaxError text))
  | Some j => inl j
  end.

Lemma setErrorField_HTTPStatus (members : list (string * Json.value)) :
  forall acc, HTTPStatus (fst (fold_left setErrorField members acc)) = HTTPStatus (fst acc).
Proof.
  induction members as [|kv members IH]; intros acc; simpl.
  - reflexivity.
  - rewrite IH. destruct acc as [v err]. unfold setErrorField.
    destruct (Json.keyIs "message" (fst kv)); [|reflexivity].
    destruct (snd kv); reflexivity.
Qed.

Lemma decode_Error_HTTPStatus (text : string) (v : Error) :
  HTTPStatus (fst (decode unmarshal_Error text v)) = HTTPStatus v.
Proof.
  unfold decode. destruct (Json.parse text) as [j|]; [|reflexivity].
  destruct j; try reflexivity.
  simpl. apply setErrorField_HTTPStatus.
Qed.

Definition isControl (c : ascii) : bool :=
  let n := N_of_ascii c in (n <? 32)%N || (n =? 127)%N.

Fixpoint hasControl (s : string) : bool :=
  match s with
  | EmptyString => false
  | String c r => isControl c || hasControl r
  end.

(** [url.Parse] refuses a target with an ASCII control character.  Its
    other refusals are not modelled, and the text of the error is cut down
    to its cause. *)
Definition parseError (target : string) : option error :=
  if hasControl target
  then Some (libError "net/url: invalid control character in URL")
  else None.

(** A client is its [Do]; the default client has no network to reach.
    [Error()] on an [Error] prints its message. *)
Definition DoFunc : Type := Request -> TransportResult string.

Definition unreachable : error := libError "dial tcp: network is unreachable".

Definition noNetwork : DoFunc := fun _ => (None, Some unreachable).

#[global] Instance externals : Externals := {|
  BodyT := string;
  Response := Document;
  Response_zero := noDocument;
  Error_Error := Err;
  Client := DoFunc;
  http_DefaultClient := noNetwork;
  Client_Do := fun c => c;
  url_Parse_error := parseError;
  ioutil_ReadAll := fun b => (b, None);
  json_Decode_Error := decode unmarshal_Error;
  json_Decode_Error_HTTPStatus := decode_Error_HTTPStatus;
  JsonValue := Json.value;
  json_readValue := readText;
  json_unmarshal_Response := unmarshal_Response
|}.

(** A transport that answers every request with one status and body, and
    one that fails every request. *)
Definition answer (status : Z) (body : string) : @CtxFunc externals :=
  fun _ _ => (Some (mkHttpResponse status body), None).

Definition failing (err : error) : @CtxFunc externals :=
  fun _ _ => (None, Some err).

Definition client (do : @CtxFunc externals) : Api :=
  mkApi (Some do) "42" "secret".

(** The client of the examples: its transport answers with [status] and
    [body]. *)
Definition stub (status : Z) (body : string) : Api :=
  client (answer status body).

Definition quoted (s : string) : string :=
  String Json.dquote (s ++ String Json.dquote EmptyString).

(** [{"status":404,"message":"IP not found"}] *)
Definition notFoundBody : string :=
  "{" ++ quoted "status" ++ ":404," ++ quoted "message" ++ ":"
      ++ quoted "IP not found" ++ "}".

(** [{"country":{"iso_code":"US"}}] *)
Definition countryBody : string :=
  "{" ++ quoted "country" ++ ":{" ++ quoted "iso_code" ++ ":" ++ quoted "US" ++ "}}".

(** The request of the examples: [City] for [1.2.3.4] with the credentials
    of [client]. *)
Definition cityRequest : Request :=
  mkRequest "GET" "https://geoip.maxmind.com/geoip/v2.1/city/1.2.3.4"
    [("Authorization", "Basic NDI6c2VjcmV0")].

End Mem.


(** * The base64 text can be read back *)

Section Base64.

Local Open Scope N_scope.

Lemma decodeMap_enc i : i < 64 -> decodeMap (enc i) = Some i /\ Ascii.eqb (enc i) "=" = false.
Proof.
  intros H.
  destruct i as [|p]; [split; reflexivity|].
  do 7 (try (destruct p as [p|p|]; try (exfalso; lia); try (split; reflexivity))).
Qed.

Lemma land_shiftl_low a b n : a < 2 ^ n -> N.land (N.shiftl b n) a = 0.
Proof.
  intros Ha. apply N.bits_inj. intros m. rewrite N.land_spec, N.bits_0.
  destruct (N.lt_ge_cases m n) as [Hm|Hm].
  - now rewrite N.shiftl_spec_low.
  - replace (N.testbit a m) with false; [apply andb_false_r|].
    symmetry. destruct (N.eq_dec a 0) as [->|Hnz]; [apply N.bits_0|].
    apply N.bits_above_log2.
    apply N.lt_le_trans with n; [|exact Hm].
    apply N.log2_lt_pow2; [lia|exact Ha].
Qed.

Lemma lor_add a b n : a < 2 ^ n -> N.lor (N.shiftl b n) a = b * 2 ^ n + a.
Proof.
  intros Ha. pose proof (@land_shiftl_low a b n Ha) as H0.
  rewrite <- N.shiftl_mul_pow2.
  rewrite N.add_nocarry_lxor by exact H0.
  now rewrite N.lxor_lor.
Qed.

Lemma land_63 x : N.land x 63 = x mod 64.
Proof. exact (N.land_ones x 6). Qed.

Lemma land_255 x : N.land x 255 = x mod 256.
Proof. exact (N.land_ones x 8). Qed.

Ltac euclid := zify; Z.to_euclidean_division_equations; lia.

Lemma lor_disjoint x a n : a < 2 ^ n -> x mod 2 ^ n = 0 -> N.lor x a = x + a.
Proof.
  intros Ha Hx.
  assert (Hpos : 2 ^ n <> 0) by (apply N.pow_nonzero; discriminate).
  rewrite (N.div_mod x (2 ^ n) Hpos) at 1 2.
  rewrite Hx, N.add_0_r, (N.mul_comm (2 ^ n)), <- N.shiftl_mul_pow2.
  rewrite (@lor_add a (x / 2 ^ n) n Ha).
  rewrite N.shiftl_mul_pow2. reflexivity.
Qed.

Lemma quantum_add d0 d1 d2 d3 :
  d1 < 64 -> d2 < 64 -> d3 < 64 ->
  quantum d0 d1 d2 d3 = d0 * 262144 + d1 * 4096 + d2 * 64 + d3.
Proof.
  intros H1 H2 H3. unfold quantum. rewrite !N.shiftl_mul_pow2.
  change (2 ^ 18) with 262144. change (2 ^ 12) with 4096. change (2 ^ 6) with 64.
  rewrite (@lor_disjoint (d0 * 262144) (d1 * 4096) 18);
    [|change (2 ^ 18) with 262144; lia|change (2 ^ 18) with 262144; euclid].
  rewrite (@lor_disjoint (d0 * 262144 + d1 * 4096) (d2 * 64) 12);
    [|change (2 ^ 12) with 4096; lia|change (2 ^ 12) with 4096; euclid].
  rewrite (@lor_disjoint (d0 * 262144 + d1 * 4096 + d2 * 64) d3 6);
    [|change (2 ^ 6) with 64; lia|change (2 ^ 6) with 64; euclid].
  reflexivity.
Qed.

Lemma pack3 a b c :
  N.lor (N.lor (N.shiftl (N_of_ascii a) 16) (N.shiftl (N_of_ascii b) 8)) (N_of_ascii c)
  = N_of_ascii a * 65536 + N_of_ascii b * 256 + N_of_ascii c.
Proof.
  pose proof (N_ascii_bounded a). pose proof (N_ascii_bounded b).
  pose proof (N_ascii_bounded c).
  rewrite !N.shiftl_mul_pow2.
  change (2 ^ 16) with 65536. change (2 ^ 8) with 256.
  rewrite (@lor_disjoint (N_of_ascii a * 65536) (N_of_ascii b * 256) 16);
    [|change (2 ^ 16) with 65536; lia|change (2 ^ 16) with 65536; euclid].
  rewrite (@lor_disjoint (N_of_ascii a * 65536 + N_of_ascii b * 256) (N_of_ascii c) 8);
    [|change (2 ^ 8) with 256; lia|change (2 ^ 8) with 256; euclid].
  reflexivity.
Qed.

Lemma sextet_index val k : N.land (N.shiftr val k) 63 = (val / 2 ^ k) mod 64.
Proof. now rewrite land_63, N.shiftr_div_pow2. Qed.

Lemma sextet_decodes val k :
  decodeMap (sextet val k) = Some ((val / 2 ^ k) mod 64) /\
  Ascii.eqb (sextet val k) "=" = false.
Proof.
  unfold sextet. rewrite sextet_index. apply decodeMap_enc.
  apply N.mod_lt. discriminate.
Qed.

Lemma requantum val d2 d3 :
  val < 16777216 ->
  d2 = (val / 64) mod 64 -> d3 = val mod 64 ->
  quantum ((val / 262144) mod 64) ((val / 4096) mod 64) d2 d3 = val.
Proof.
  intros Hval -> ->.
  rewrite quantum_add by (apply N.mod_lt; discriminate).
  euclid.
Qed.

Lemma byte_of_ascii a n : n mod 256 = N_of_ascii a -> byte n = a.
Proof.
  intros H. unfold byte. now rewrite land_255, H, ascii_N_embedding.
Qed.

Lemma decode_quantum c0 c1 c2 c3 rest d0 d1 d2 d3 :
  decodeMap c0 = Some d0 -> decodeMap c1 = Some d1 ->
  decodeMap c2 = Some d2 -> decodeMap c3 = Some d3 ->
  Ascii.eqb c2 "=" = false -> Ascii.eqb c3 "=" = false ->
  base64_DecodeString (String c0 (String c1 (String c2 (String c3 rest)))) =
    match base64_DecodeString rest with
    | None => None
    | Some out =>
        let val := quantum d0 d1 d2 d3 in
        Some (String (byte (N.shiftr val 16))
                (String (byte (N.shiftr val 8)) (String (byte val) out)))
    end.
Proof.
  intros H0 H1 H2 H3 E2 E3. cbn [base64_DecodeString].
  rewrite H0, H1, H2, H3, E2, E3. reflexivity.
Qed.

Lemma string_ind3 (P : string -> Prop) :
  P EmptyString ->
  (forall a, P (String a EmptyString)) ->
  (forall a b, P (String a (String b EmptyString))) ->
  (forall a b c rest, P rest -> P (String a (String b (String c rest)))) ->
  forall s, P s.
Proof.
  intros H0 H1 H2 H3. fix IH 1.
  intros [|a [|b [|c rest]]].
  - exact H0.
  - apply H1.
  - apply H2.
  - apply H3, IH.
Qed.

Lemma base64_roundtrip (src : string) :
  base64_DecodeString (base64_EncodeToString src) = Some src.
Proof.
  induction src as [|a|a b|a b c rest IH] using string_ind3.
  - reflexivity.
  - cbn [base64_EncodeToString]. cbv zeta.
    pose proof (N_ascii_bounded a) as Ha.
    set (val := N.shiftl (N_of_ascii a) 16).
    assert (Hval : val = N_of_ascii a * 65536) by apply N.shiftl_mul_pow2.
    destruct (sextet_decodes val 18) as [D0 _].
    destruct (sextet_decodes val 12) as [D1 _].
    cbn [base64_DecodeString]. rewrite D0, D1.
    change (Ascii.eqb "=" "=") with true. cbv iota zeta.
    f_equal. f_equal. apply byte_of_ascii.
    rewrite quantum_add by (try (apply N.mod_lt; discriminate); reflexivity).
    rewrite N.shiftr_div_pow2.
    change (2 ^ 18) with 262144. change (2 ^ 12) with 4096. change (2 ^ 16) with 65536.
    rewrite Hval. euclid.
  - cbn [base64_EncodeToString]. cbv zeta.
    pose proof (N_ascii_bounded a) as Ha. pose proof (N_ascii_bounded b) as Hb.
    set (val := N.lor _ _).
    assert (Hval : val = N_of_ascii a * 65536 + N_of_ascii b * 256).
    { pose proof (pack3 a b zero) as Hp. change (N_of_ascii zero) with 0 in Hp.
      rewrite N.lor_0_r, N.add_0_r in Hp. exact Hp. }
    destruct (sextet_decodes val 18) as [D0 _].
    destruct (sextet_decodes val 12) as [D1 _].
    destruct (sextet_decodes val 6) as [D2 E2].
    cbn [base64_DecodeString]. rewrite D0, D1, E2, D2.
    change (Ascii.eqb "=" "=") with true. cbv iota zeta.
    rewrite quantum_add by (try (apply N.mod_lt; discriminate); reflexivity).
    rewrite !N.shiftr_div_pow2.
    change (2 ^ 18) with 262144. change (2 ^ 12) with 4096. change (2 ^ 16) with 65536.
    change (2 ^ 6) with 64. change (2 ^ 8) with 256.
    f_equal. f_equal; [|f_equal]; apply byte_of_ascii; rewrite Hval; euclid.
  - cbn [base64_EncodeToString]. cbv zeta.
    pose proof (N_ascii_bounded a) as Ha. pose proof (N_ascii_bounded b) as Hb.
    pose proof (N_ascii_bounded c) as Hc.
    set (val := N.lor _ _).
    assert (Hval : val = N_of_ascii a * 65536 + N_of_ascii b * 256 + N_of_ascii c)
      by apply pack3.
    destruct (sextet_decodes val 18) as [D0 _].
    destruct (sextet_decodes val 12) as [D1 _].
    destruct (sextet_decodes val 6) as [D2 E2].
    destruct (sextet_decodes val 0) as [D3 E3].
    rewrite (@decode_quantum _ _ _ _ _ _ _ _ _ D0 D1 D2 D3 E2 E3), IH. cbv zeta.
    rewrite requantum; [| rewrite Hval; lia | reflexivity | now rewrite N.div_1_r].
    rewrite !N.shiftr_div_pow2.
    change (2 ^ 16) with 65536. change (2 ^ 8) with 256.
    f_equal. f_equal; [|f_equal; [|f_equal]]; apply byte_of_ascii; rewrite Hval; euclid.
Qed.

End Base64.

(** * Properties of the pipeline *)

Section Properties.

Context {X : Externals}.

Lemma fetch_classify a ctx prefix ipAddress r :
  transportGives a ctx prefix ipAddress r ->
  fetch a ctx prefix ipAddress = classify r.
Proof.
  intros (req & do & Hreq & Hdo & Hr).
  unfold fetch. rewrite Hreq, Hdo. cbv zeta. now rewrite Hr.
Qed.

Lemma errorStatus_true status :
  400 <= status < 600 -> (400 <=? status) && (status <? 600) = true.
Proof.
  intros [Hlo Hhi]. apply andb_true_intro; split.
  - now apply Z.leb_le.
  - now apply Z.ltb_lt.
Qed.

Lemma errorStatus_false status :
  status < 400 \/ 600 <= status -> (400 <=? status) && (status <? 600) = false.
Proof.
  intros [H|H].
  - replace (400 <=? status) with false; [reflexivity|].
    symmetry. apply Z.leb_gt. exact H.
  - replace (status <? 600) with false; [apply andb_false_r|].
    symmetry. apply Z.ltb_ge. exact H.
Qed.


(** ** The transport fails *)

(** C5.  When the transport hands back an error, [fetch] returns that very
    error value, as it is, with the empty Response. *)
Theorem fetch_transport_failure a ctx prefix ipAddress resp err :
  transportGives a ctx prefix ipAddress (resp, Some err) ->
  fetch a ctx prefix ipAddress = Return Response_zero (Some err).
Proof.
  intros H. rewrite (fetch_classify H). unfold classify.
  destruct resp; reflexivity.
Qed.

(** ** A status in [400, 600) *)

Lemma classify_errorAnswer (resp : HttpResponse BodyT) :
  400 <= StatusCode resp < 600 ->
  classify (Some resp, None) = errorAnswer resp.
Proof.
  intros H. unfold classify. now rewrite (errorStatus_true H).
Qed.

Lemma classify_successAnswer (resp : HttpResponse BodyT) :
  StatusCode resp < 400 \/ 600 <= StatusCode resp ->
  classify (Some resp, None) = successAnswer resp.
Proof.
  intros H. unfold classify. now rewrite (errorStatus_false H).
Qed.

(** The error body does not decode: the message is made from the raw body,
    the status is the HTTP status. *)
Lemma fetch_error_body_undecoded a ctx prefix ipAddress resp buf v e :
  transportGives a ctx prefix ipAddress (Some resp, None) ->
  400 <= StatusCode resp < 600 ->
  ioutil_ReadAll (Body resp) = (buf, None) ->
  json_Decode_Error buf (mkError (StatusCode resp) "") = (v, Some e) ->
  fetch a ctx prefix ipAddress =
    Return Response_zero
      (Some (serviceError
               (mkError (StatusCode resp)
                  ("Error parsing error response as JSON: " ++ buf)))).
Proof.
  intros Ht Hs Hread Hdec.
  rewrite (fetch_classify Ht), (classify_errorAnswer _ Hs).
  unfold errorAnswer. rewrite Hread, Hdec.
  pose proof (json_Decode_Error_HTTPStatus buf (mkError (StatusCode resp) "")) as Hkeep.
  rewrite Hdec in Hkeep. simpl in Hkeep. now rewrite Hkeep.
Qed.

(** The error body decodes: the error is the decoded value, and its status
    is the HTTP status. *)
Lemma fetch_error_body_decoded a ctx prefix ipAddress resp buf v :
  transportGives a ctx prefix ipAddress (Some resp, None) ->
  400 <= StatusCode resp < 600 ->
  ioutil_ReadAll (Body resp) = (buf, None) ->
  json_Decode_Error buf (mkError (StatusCode resp) "") = (v, None) ->
  fetch a ctx prefix ipAddress = Return Response_zero (Some (serviceError v)) /\
  HTTPStatus v = StatusCode resp.
Proof.
  intros Ht Hs Hread Hdec. split.
  - rewrite (fetch_classify Ht), (classify_errorAnswer _ Hs).
    unfold errorAnswer. now rewrite Hread, Hdec.
  - pose proof (json_Decode_Error_HTTPStatus buf (mkError (StatusCode resp) "")) as Hkeep.
    now rewrite Hdec in Hkeep.
Qed.

(** The error body cannot be read: the read error is returned. *)
Lemma fetch_error_body_unread a ctx prefix ipAddress resp buf e :
  transportGives a ctx prefix ipAddress (Some resp, None) ->
  400 <= StatusCode resp < 600 ->
  ioutil_ReadAll (Body resp) = (buf, Some e) ->
  fetch a ctx prefix ipAddress = Return Response_zero (Some e).
Proof.
  intros Ht Hs Hread.
  rewrite (fetch_classify Ht), (classify_errorAnswer _ Hs).
  unfold errorAnswer. now rewrite Hread.
Qed.

(** ** Any other status *)




Lemma fetch_success_body_decoded a ctx prefix ipAddress resp response :
  transportGives a ctx prefix ipAddress (Some resp, None) ->
  StatusCode resp < 400 \/ 600 <= StatusCode resp ->
  json_Decode_Response (Body resp) Response_zero = (response, None) ->
  fetch a ctx prefix ipAddress = Return response None.
Proof.
  intros Ht Hs Hdec.
  rewrite (fetch_classify Ht), (classify_successAnswer _ Hs).
  unfold successAnswer. now rewrite Hdec.
Qed.

(** C7.  Status 200 and a body that decodes: [fetch] returns the decoded
    Response and a nil error, and so do the three lookups, which are [fetch]
    at their prefixes. *)
Theorem fetch_ok a ctx prefix ipAddress resp response :
  transportGives a ctx prefix ipAddress (Some resp, None) ->
  StatusCode resp = 200 ->
  json_Decode_Response (Body resp) Response_zero = (response, None) ->
  fetch a ctx prefix ipAddress = Return response None /\
  (prefix = countryPrefix -> Country a ctx ipAddress = Return response None) /\
  (prefix = cityPrefix -> City a ctx ipAddress = Return response None) /\
  (prefix = insightsPrefix -> Insights a ctx ipAddress = Return response None).
Proof.
  intros Ht Hs Hdec.
  assert (Hfetch : fetch a ctx prefix ipAddress = Return response None).
  { apply fetch_success_body_decoded with (resp := resp); auto.
    left. rewrite Hs. reflexivity. }
  repeat split; try assumption; intros ->; exact Hfetch.
Qed.

(** ** Every way a lookup can end *)






(** ** The default transport *)

Lemma deref_alloc_new (s : Api) (h : Heap) :
  deref (snd (alloc s h)) (fst (alloc s h)) = Some s.
Proof.
  simpl. rewrite nth_error_app2 by apply Nat.le_refl.
  now rewrite Nat.sub_diag.
Qed.

Lemma deref_alloc_old (s : Api) (h : Heap) (q : ApiPtr) (s' : Api) :
  deref h q = Some s' -> deref (snd (alloc s h)) q = Some s'.
Proof.
  destruct q as [l|]; simpl; [|discriminate].
  intros H. rewrite nth_error_app1; [exact H|].
  apply nth_error_Some. rewrite H. discriminate.
Qed.

Lemma alloc_fresh (s : Api) (h : Heap) (q : ApiPtr) (s' : Api) :
  deref h q = Some s' -> fst (alloc s h) <> q.
Proof.
  destruct q as [l|]; simpl; [|discriminate].
  intros H Heq. injection Heq as <-.
  assert (Hlt : (length h < length h)%nat).
  { apply nth_error_Some. rewrite H. discriminate. }
  exact (Nat.lt_irrefl _ Hlt).
Qed.

Lemma fetch_wrap (f : Request -> TransportResult BodyT) u k ctx ctx' prefix ipAddress :
  fetch (mkApi (Some (wrap f)) u k) ctx prefix ipAddress =
  fetch (mkApi (Some (wrap f)) u k) ctx' prefix ipAddress.
Proof. reflexivity. Qed.

(** C6.  The transport [wrap f] returns [f req] whatever the context, so
    two calls that differ in the context only behave alike, and a lookup
    through such a client does not depend on the context it is given.
    [New] installs [wrap] of the default client's [Do], and [WithClient]
    [wrap] of the given client's. *)
Theorem wrap_ignores_context :
  (forall (f : Request -> TransportResult BodyT) ctx req, wrap f ctx req = f req) /\
  (forall (f : Request -> TransportResult BodyT) ctx ctx' req,
     wrap f ctx req = wrap f ctx' req) /\
  (forall (f : Request -> TransportResult BodyT) u k ctx ctx' prefix ipAddress,
     fetch (mkApi (Some (wrap f)) u k) ctx prefix ipAddress =
     fetch (mkApi (Some (wrap f)) u k) ctx' prefix ipAddress) /\
  (forall u k h, exists p h',
     New u k h = Some (p, h') /\
     deref h' p = Some (mkApi (Some (wrap (Client_Do http_DefaultClient))) u k)) /\
  (forall api client h s,
     deref h api = Some s ->
     exists p h',
       WithClient api client h = Some (p, h') /\
       deref h' p =
         Some (mkApi (Some (wrap (Client_Do client))) (userId s) (licenseKey s))).
Proof.
  assert (HW : forall api client h s,
     deref h api = Some s ->
     exists p h',
       WithClient api client h = Some (p, h') /\
       deref h' p =
         Some (mkApi (Some (wrap (Client_Do client))) (userId s) (licenseKey s))).
  { intros api client h s Hs. unfold WithClient, WithClientFunc. rewrite Hs.
    eexists. eexists. split; [reflexivity|].
    apply deref_alloc_new. }
  repeat split; try reflexivity.
  - intros u k h. unfold New.
    destruct (alloc (mkApi None u k) h) as [api h0] eqn:Ha.
    assert (Hs : deref h0 api = Some (mkApi None u k)).
    { pose proof (deref_alloc_new (mkApi None u k) h) as Hn.
      now rewrite Ha in Hn. }
    destruct (HW api http_DefaultClient h0 _ Hs) as (p & h' & Hc & Hp).
    exists p, h'. split; assumption.
  - exact HW.
Qed.

(** ** The request *)

Lemma buildRequest_ok a prefix ipAddress :
  url_Parse_error (prefix ++ ipAddress) = None ->
  buildRequest a prefix ipAddress =
    inl (mkRequest "GET" (prefix ++ ipAddress)
           [("Authorization",
             "Basic " ++ base64_EncodeToString (userId a ++ ":" ++ licenseKey a))]).
Proof.
  intros H. unfold buildRequest, http_NewRequest. rewrite H. reflexivity.
Qed.

(** C8.  When the target parses, the request [fetch] hands to the transport
    is a GET for the prefix followed by the IP string as it is, with the
    single header [Authorization: Basic base64(userId:licenseKey)], from
    which [userId:licenseKey] is read back; for [City] the prefix is the
    city endpoint. *)
Theorem fetch_request a ctx prefix ipAddress :
  url_Parse_error (prefix ++ ipAddress) = None ->
  exists req,
    buildRequest a prefix ipAddress = inl req /\
    Method req = "GET" /\
    URL req = prefix ++ ipAddress /\
    Header req =
      [("Authorization",
        "Basic " ++ base64_EncodeToString (userId a ++ ":" ++ licenseKey a))] /\
    base64_DecodeString (base64_EncodeToString (userId a ++ ":" ++ licenseKey a)) =
      Some (userId a ++ ":" ++ licenseKey a) /\
    (forall do, doFunc a = Some do ->
       fetch a ctx prefix ipAddress = classify (do (orBackground ctx) req)) /\
    (prefix = cityPrefix ->
       URL req = "https://geoip.maxmind.com/geoip/v2.1/city/" ++ ipAddress /\
       forall do, doFunc a = Some do ->
         City a ctx ipAddress = classify (do (orBackground ctx) req)).
Proof.
  intros H. eexists. split; [apply (buildRequest_ok a _ _ H)|].
  assert (Hf : forall do, doFunc a = Some do ->
     fetch a ctx prefix ipAddress =
     classify (do (orBackground ctx)
                 (mkRequest "GET" (prefix ++ ipAddress)
                    [("Authorization",
                      "Basic " ++ base64_EncodeToString
                                    (userId a ++ ":" ++ licenseKey a))]))).
  { intros do Hdo. apply fetch_classify. eexists. exists do.
    split; [apply (buildRequest_ok a _ _ H)|]. split; [exact Hdo|reflexivity]. }
  split; [reflexivity|]. split; [reflexivity|]. split; [reflexivity|].
  split; [apply base64_roundtrip|]. split; [exact Hf|].
  intros ->. split; [reflexivity|exact Hf].
Qed.

(** ** The context *)

Lemma orBackground_not_nil ctx : orBackground ctx <> nilContext.
Proof. destruct ctx; discriminate. Qed.

(** A transport is asked at one point only, and never at the nil context:
    two transports that agree on every non-nil context give the same
    lookups. *)
Lemma fetch_transport_ext (do do' : CtxFunc) u k ctx prefix ipAddress :
  (forall c req, do' (Some c) req = do (Some c) req) ->
  fetch (mkApi (Some do') u k) ctx prefix ipAddress =
  fetch (mkApi (Some do) u k) ctx prefix ipAddress.
Proof.
  intros Hagree. unfold fetch, buildRequest. simpl.
  destruct (http_NewRequest "GET" (prefix ++ ipAddress)) as [req|err];
    [|reflexivity].
  destruct ctx as [c|]; unfold orBackground, context_Background; cbv zeta;
    now rewrite Hagree.
Qed.

(** C10.  A call with the nil context invokes the transport with the
    background context, which cannot be cancelled; whatever the context of
    the call, the one the transport is invoked with is not nil, and what
    the transport would do at the nil context has no bearing on the
    lookup. *)
Theorem fetch_nil_context a prefix ipAddress req do :
  buildRequest a prefix ipAddress = inl req ->
  doFunc a = Some do ->
  fetch a nilContext prefix ipAddress = classify (do context_Background req) /\
  context_Background = Some backgroundCtx /\
  cancellable backgroundCtx = false /\
  (forall ctx, exists c,
     orBackground ctx = Some c /\
     fetch a ctx prefix ipAddress = classify (do (Some c) req)) /\
  (forall do' ctx,
     (forall c r, do' (Some c) r = do (Some c) r) ->
     fetch (mkApi (Some do') (userId a) (licenseKey a)) ctx prefix ipAddress =
     fetch a ctx prefix ipAddress).
Proof.
  intros Hreq Hdo.
  assert (Hf : forall ctx,
             fetch a ctx prefix ipAddress = classify (do (orBackground ctx) req)).
  { intros ctx. apply fetch_classify. exists req, do. auto. }
  split; [apply Hf|]. split; [reflexivity|]. split; [reflexivity|]. split.
  - intros ctx. destruct ctx as [c|].
    + exists c. split; [reflexivity|apply Hf].
    + exists backgroundCtx. split; [reflexivity|apply Hf].
  - intros do' ctx Hagree.
    etransitivity.
    { apply (@fetch_transport_ext do do' (userId a) (licenseKey a)), Hagree. }
    destruct a as [d u k]. simpl in *. now subst d.
Qed.

(** ** Deriving a client *)

Lemma fetchAt_alloc_old (s : Api) (h : Heap) (q : ApiPtr) (s' : Api)
    ctx prefix ipAddress :
  deref h q = Some s' ->
  fetchAt (snd (alloc s h)) q ctx prefix ipAddress = fetchAt h q ctx prefix ipAddress.
Proof.
  intros H. unfold fetchAt. now rewrite (@deref_alloc_old s _ _ _ H), H.
Qed.

Lemma deref_fresh (h : Heap) : deref h (Some (length h)) = None.
Proof. simpl. apply nth_error_None. apply Nat.le_refl. Qed.

Lemma WithClientFunc_derives (h : Heap) (api : ApiPtr) (s : Api) (f : option CtxFunc) :
  deref h api = Some s ->
  exists p h', WithClientFunc api f h = Some (p, h') /\ derives h api s f p h'.
Proof.
  intros Hs. unfold WithClientFunc. rewrite Hs.
  eexists. eexists. split; [reflexivity|].
  set (n := mkApi f (userId s) (licenseKey s)).
  repeat split.
  - apply (@alloc_fresh n _ _ _ Hs).
  - apply deref_fresh.
  - apply (deref_alloc_new n h).
  - apply (@deref_alloc_old n _ _ _ Hs).
  - intros q s' Hq. apply (@deref_alloc_old n _ _ _ Hq).
  - intros q s' ctx prefix ipAddress Hq.
    apply (@fetchAt_alloc_old n _ _ _ ctx prefix ipAddress Hq).
Qed.

(** C9.  [WithClientFunc] and [WithClient] leave the base client, field by
    field, and every other client as they were, and return a new client
    with the credentials of the base; lookups through the base still go
    through the transport it had. *)
Theorem derived_client_frame (h : Heap) (api : ApiPtr) (s : Api) :
  deref h api = Some s ->
  (forall f, exists p h',
     WithClientFunc api f h = Some (p, h') /\ derives h api s f p h') /\
  (forall client, exists p h',
     WithClient api client h = Some (p, h') /\
     derives h api s (Some (wrap (Client_Do client))) p h') /\
  (forall f p h' ctx prefix ipAddress,
     WithClientFunc api f h = Some (p, h') ->
     deref h' api = Some s /\
     (exists s', deref h' p = Some s' /\
                 userId s' = userId s /\ licenseKey s' = licenseKey s) /\
     fetchAt h' api ctx prefix ipAddress = fetch s ctx prefix ipAddress).
Proof.
  intros Hs. split; [|split].
  - intros f. now apply WithClientFunc_derives.
  - intros client. unfold WithClient. now apply WithClientFunc_derives.
  - intros f p h' ctx prefix ipAddress Hw.
    destruct (@WithClientFunc_derives h api s f Hs) as (p0 & h0 & Hw0 & Hd).
    rewrite Hw in Hw0. injection Hw0 as <- <-.
    destruct Hd as (_ & _ & Hp & Hbase & _ & Hfetch).
    split; [exact Hbase|]. split.
    + eexists. split; [exact Hp|]. split; reflexivity.
    + rewrite (Hfetch api s ctx prefix ipAddress Hs). unfold fetchAt. now rewrite Hs.
Qed.

End Properties.

(** * The pipeline on the in-memory instance *)

Lemma stub_gives status body ctx :
  transportGives (Mem.stub status body) ctx cityPrefix "1.2.3.4"
    (Some (mkHttpResponse status body), None).
Proof.
  exists Mem.cityRequest, (Mem.answer status body).
  split; [reflexivity|]. split; reflexivity.
Defined.




(** C2, refuted as worded: for status 500 and the body [internal failure]
    the message is not the text of the specification followed by the
    body. *)
Lemma fetch_error_body_message_differs :
  exists v,
    fetch (Mem.stub 500 "internal failure") nilContext cityPrefix "1.2.3.4" =
      Return Response_zero (Some (serviceError v)) /\
    HTTPStatus v = 500 /\
    Err v <> "failed to parse error body as JSON" ++ "internal failure".
Proof.
  eexists. split; [reflexivity|]. split; [reflexivity|]. discriminate.
Qed.


(** C2, as the code has it.  A status in [400, 600) with a body that does
    not decode as the error schema gives the empty Response and an [Error]
    whose message is ["Error parsing error response as JSON: "] followed by
    the raw body and whose status is the HTTP status.  For status 500 and
    the body [internal failure] the message holds the parse-failure text and
    the words [internal failure], and the status is 500. *)
Theorem fetch_error_body_not_json :
  (forall (X : Externals) a ctx prefix ipAddress resp buf v e,
     transportGives a ctx prefix ipAddress (Some resp, None) ->
     400 <= StatusCode resp < 600 ->
     ioutil_ReadAll (Body resp) = (buf, None) ->
     json_Decode_Error buf (mkError (StatusCode resp) "") = (v, Some e) ->
     fetch a ctx prefix ipAddress =
       Return Response_zero
         (Some (serviceError
                  (mkError (StatusCode resp)
                     ("Error parsing error response as JSON: " ++ buf))))) /\
  fetch (Mem.stub 500 "internal failure") nilContext cityPrefix "1.2.3.4" =
    Return Response_zero
      (Some (serviceError
               (mkError 500
                  ("Error parsing error response as JSON: " ++ "internal failure")))).
Proof.
  split.
  - intros X a ctx prefix ipAddress resp buf v e.
    apply fetch_error_body_undecoded.
  - reflexivity.
Qed.

Lemma fetch_error_body_not_json_witness :
  fetch (Mem.stub 502 "<html>Bad Gateway</html>") nilContext cityPrefix "1.2.3.4" =
    Return Response_zero
      (Some (serviceError
               (mkError 502
                  "Error parsing error response as JSON: <html>Bad Gateway</html>"))).
Proof.
  apply (proj1 fetch_error_body_not_json Mem.externals
           (Mem.stub 502 "<html>Bad Gateway</html>") nilContext cityPrefix "1.2.3.4"
           (mkHttpResponse 502 "<html>Bad Gateway</html>")
           "<html>Bad Gateway</html>" (mkError 502 "")
           (libError "invalid character '<' looking for beginning of value")).
  - apply stub_gives.
  - simpl. lia.
  - reflexivity.
  - reflexivity.
Defined.

(** C4.  A status in [400, 600) with a body that decodes as the error
    schema gives the empty Response and the decoded [Error], whose status is
    the HTTP status.  For status 404 and the body
    [{"status":404,"message":"IP not found"}] the error has status 404 and
    the message [IP not found]. *)
Theorem fetch_error_body_json :
  (forall (X : Externals) a ctx prefix ipAddress resp buf v,
     transportGives a ctx prefix ipAddress (Some resp, None) ->
     400 <= StatusCode resp < 600 ->
     ioutil_ReadAll (Body resp) = (buf, None) ->
     json_Decode_Error buf (mkError (StatusCode resp) "") = (v, None) ->
     fetch a ctx prefix ipAddress = Return Response_zero (Some (serviceError v)) /\
     HTTPStatus v = StatusCode resp) /\
  fetch (Mem.stub 404 Mem.notFoundBody) nilContext cityPrefix "1.2.3.4" =
    Return Response_zero (Some (serviceError (mkError 404 "IP not found"))).
Proof.
  split.
  - intros X a ctx prefix ipAddress resp buf v.
    apply fetch_error_body_decoded.
  - reflexivity.
Qed.

Lemma fetch_error_body_json_witness :
  fetch (Mem.stub 404 Mem.notFoundBody) (Some backgroundCtx) insightsPrefix "::1" =
    Return Response_zero (Some (serviceError (mkError 404 "IP not found"))) /\
  HTTPStatus (mkError 404 "IP not found") = 404.
Proof.
  apply (proj1 fetch_error_body_json Mem.externals
           (Mem.stub 404 Mem.notFoundBody) (Some backgroundCtx) insightsPrefix "::1"
           (mkHttpResponse 404 Mem.notFoundBody) Mem.notFoundBody
           (mkError 404 "IP not found")).
  - eexists. eexists. split; [reflexivity|]. split; reflexivity.
  - simpl. lia.
  - reflexivity.
  - reflexivity.
Defined.

Lemma fetch_transport_failure_witness :
  fetch (Mem.client (Mem.failing Mem.unreachable)) nilContext cityPrefix "1.2.3.4" =
    Return Response_zero (Some Mem.unreachable).
Proof.
  apply (@fetch_transport_failure Mem.externals
           (Mem.client (Mem.failing Mem.unreachable)) nilContext cityPrefix "1.2.3.4"
           None Mem.unreachable).
  exists Mem.cityRequest, (Mem.failing Mem.unreachable).
  split; [reflexivity|]. split; reflexivity.
Defined.


Lemma fetch_ok_witness :
  fetch (Mem.stub 200 Mem.countryBody) nilContext cityPrefix "1.2.3.4" =
    Return [("country", Json.Object [("iso_code", Json.Str "US")])] None /\
  (cityPrefix = countryPrefix ->
   Country (Mem.stub 200 Mem.countryBody) nilContext "1.2.3.4" =
     Return [("country", Json.Object [("iso_code", Json.Str "US")])] None) /\
  (cityPrefix = cityPrefix ->
   City (Mem.stub 200 Mem.countryBody) nilContext "1.2.3.4" =
     Return [("country", Json.Object [("iso_code", Json.Str "US")])] None) /\
  (cityPrefix = insightsPrefix ->
   Insights (Mem.stub 200 Mem.countryBody) nilContext "1.2.3.4" =
     Return [("country", Json.Object [("iso_code", Json.Str "US")])] None).
Proof.
  apply (@fetch_ok Mem.externals
           (Mem.stub 200 Mem.countryBody) nilContext cityPrefix "1.2.3.4"
           (mkHttpResponse 200 Mem.countryBody)).
  - apply stub_gives.
  - reflexivity.
  - reflexivity.
Defined.

Lemma fetch_request_witness :
  exists req,
    buildRequest (Mem.stub 200 "{}") cityPrefix "1.2.3.4" = inl req /\
    Method req = "GET" /\
    URL req = "https://geoip.maxmind.com/geoip/v2.1/city/1.2.3.4" /\
    Header req = [("Authorization", "Basic NDI6c2VjcmV0")] /\
    City (Mem.stub 200 "{}") nilContext "1.2.3.4" =
      classify (Mem.answer 200 "{}" context_Background req).
Proof.
  destruct (@fetch_request Mem.externals (Mem.stub 200 "{}") nilContext
              cityPrefix "1.2.3.4" eq_refl)
    as (req & Hreq & Hm & Hu & Hh & _ & _ & Hcity).
  exists req. split; [exact Hreq|]. split; [exact Hm|].
  split; [exact Hu|]. split; [exact Hh|].
  apply (proj2 (Hcity eq_refl)). reflexivity.
Defined.

Lemma fetch_nil_context_witness :
  fetch (Mem.stub 200 "{}") nilContext cityPrefix "1.2.3.4" =
    classify (Mem.answer 200 "{}" context_Background Mem.cityRequest) /\
  exists c,
    orBackground (Some (cancelCtx backgroundCtx 7)) = Some c /\
    fetch (Mem.stub 200 "{}") (Some (cancelCtx backgroundCtx 7)) cityPrefix "1.2.3.4" =
      classify (Mem.answer 200 "{}" (Some c) Mem.cityRequest).
Proof.
  destruct (@fetch_nil_context Mem.externals (Mem.stub 200 "{}") cityPrefix
              "1.2.3.4" Mem.cityRequest (Mem.answer 200 "{}") eq_refl eq_refl)
    as (Hnil & _ & _ & Hany & _).
  split; [exact Hnil|]. apply Hany.
Defined.

Lemma derived_client_frame_witness :
  exists p h',
    WithClientFunc (Some 0%nat) (Some (Mem.failing Mem.unreachable))
      [Mem.stub 200 "{}"] = Some (p, h') /\
    deref h' (Some 0%nat) = Some (Mem.stub 200 "{}") /\
    fetchAt h' (Some 0%nat) nilContext cityPrefix "1.2.3.4" =
      fetch (Mem.stub 200 "{}") nilContext cityPrefix "1.2.3.4".
Proof.
  destruct (@derived_client_frame Mem.externals [Mem.stub 200 "{}"] (Some 0%nat)
              (Mem.stub 200 "{}") eq_refl)
    as (Hfunc & _ & Hcall).
  destruct (Hfunc (Some (Mem.failing Mem.unreachable))) as (p & h' & Hw & _).
  exists p, h'. split; [exact Hw|].
  destruct (Hcall _ p h' nilContext cityPrefix "1.2.3.4" Hw) as (Hbase & _ & Hfetch).
  split; [exact Hbase|exact Hfetch].
Defined.

Lemma wrap_ignores_context_witness :
  exists p h',
    WithClient (Some 0%nat) Mem.noNetwork [Mem.stub 200 "{}"] = Some (p, h') /\
    deref h' p = Some (mkApi (Some (wrap (Client_Do Mem.noNetwork))) "42" "secret").
Proof.
  apply (proj2 (proj2 (proj2 (proj2 (@wrap_ignores_context Mem.externals))))
           (Some 0%nat) Mem.noNetwork [Mem.stub 200 "{}"] (Mem.stub 200 "{}")).
  reflexivity.
Defined.

(** * More of the pipeline *)

(** ** A second instance: bodies whose stream breaks

    A body is its text, or a stream whose first [Read] fails.  On such a
    stream [ioutil.ReadAll] returns no bytes and the error of the read, and
    [Decoder.readValue] returns the error of the read.  The rest is as in
    [Mem]. *)

Module Broken.

Definition Stream : Type := (string + error)%type.

Definition readAll (b : Stream) : errOr string :=
  match b with
  | inl text => (text, None)
  | inr err => (EmptyString, Some err)
  end.

Definition readStream (b : Stream) : Json.value + error :=
  match b with
  | inl text => Mem.readText text
  | inr err => inr err
  end.

Definition DoFunc : Type := Request -> TransportResult Stream.

Definition noNetwork : DoFunc := fun _ => (None, Some Mem.unreachable).

Definition externals : Externals := {|
  BodyT := Stream;
  Response := Mem.Document;
  Response_zero := Mem.noDocument;
  Error_Error := Err;
  Client := DoFunc;
  http_DefaultClient := noNetwork;
  Client_Do := fun c => c;
  url_Parse_error := Mem.parseError;
  ioutil_ReadAll := readAll;
  json_Decode_Error := Mem.decode Mem.unmarshal_Error;
  json_Decode_Error_HTTPStatus := Mem.decode_Error_HTTPStatus;
  JsonValue := Json.value;
  json_readValue := readStream;
  json_unmarshal_Response := Mem.unmarshal_Response
|}.

Definition resetByPeer : error := libError "read tcp: connection reset by peer".

(** A transport that answers with [status] and a body that breaks. *)
Definition broken (status : Z) : @CtxFunc externals :=
  fun _ _ => (Some (mkHttpResponse status (inr resetByPeer)), None).

Definition client (do : @CtxFunc externals) : @Api externals :=
  mkApi (Some do) "42" "secret".

End Broken.

Section More.

Context {X : Externals}.

(** The request [fetch] sends for the client [a] to the target [url]. *)
Definition authorized (a : Api) (url : string) : Request :=
  mkRequest "GET" url
    [("Authorization",
      "Basic " ++ base64_EncodeToString (userId a ++ ":" ++ licenseKey a))].

Lemma buildRequest_cases a prefix ipAddress :
  buildRequest a prefix ipAddress =
    match url_Parse_error (prefix ++ ipAddress) with
    | Some err => inr err
    | None => inl (authorized a (prefix ++ ipAddress))
    end.
Proof.
  unfold buildRequest, http_NewRequest.
  destruct (url_Parse_error (prefix ++ ipAddress)); reflexivity.
Qed.

(** ** The target does not parse *)

(** X1.  When [http.NewRequest] refuses the target, [fetch] returns its
    error with the empty Response before it reads its receiver: the
    outcome is the same for a client without a transport and for a nil
    receiver. *)
Theorem fetch_bad_target a ctx prefix ipAddress err :
  url_Parse_error (prefix ++ ipAddress) = Some err ->
  fetch a ctx prefix ipAddress = Return Response_zero (Some err) /\
  (forall h p, fetchAt h p ctx prefix ipAddress = Return Response_zero (Some err)).
Proof.
  intros H.
  assert (Hany : forall b : Api,
             fetch b ctx prefix ipAddress = Return Response_zero (Some err)).
  { intros b. unfold fetch. rewrite buildRequest_cases, H. reflexivity. }
  split; [apply Hany|].
  intros h p. unfold fetchAt. destruct (deref h p) as [s|]; [apply Hany|].
  unfold http_NewRequest. now rewrite H.
Qed.

(** ** An error status, whatever the body *)

Lemma errorAnswer_cases (resp : HttpResponse BodyT) :
  match ioutil_ReadAll (Body resp) with
  | (_, Some e) => errorAnswer resp = Return Response_zero (Some e)
  | (buf, None) =>
      exists v, errorAnswer resp = Return Response_zero (Some (serviceError v)) /\
                HTTPStatus v = StatusCode resp
  end.
Proof.
  unfold errorAnswer.
  destruct (ioutil_ReadAll (Body resp)) as [buf [e|]]; [reflexivity|].
  pose proof (json_Decode_Error_HTTPStatus buf (mkError (StatusCode resp) "")) as Hkeep.
  destruct (json_Decode_Error buf (mkError (StatusCode resp) "")) as [v [e|]];
    simpl in Hkeep; eexists; (split; [reflexivity|]); exact Hkeep.
Qed.

(** X2.  With a status in [400, 600) the success schema is never tried and
    the error is never nil: when the body cannot be read the error of the
    read is returned as it is, and otherwise the error is an [Error] whose
    status is the HTTP status; the Response is empty in both cases. *)
Theorem fetch_error_status a ctx prefix ipAddress resp :
  transportGives a ctx prefix ipAddress (Some resp, None) ->
  400 <= StatusCode resp < 600 ->
  match ioutil_ReadAll (Body resp) with
  | (_, Some e) => fetch a ctx prefix ipAddress = Return Response_zero (Some e)
  | (buf, None) =>
      exists v,
        fetch a ctx prefix ipAddress = Return Response_zero (Some (serviceError v)) /\
        HTTPStatus v = StatusCode resp
  end.
Proof.
  intros Ht Hs.
  rewrite (fetch_classify Ht), (classify_errorAnswer _ Hs).
  apply errorAnswer_cases.
Qed.

(** ** Any status outside [400, 600) *)

(** X3.  Only the range [400, 600) makes an answer an error: with any
    other status, 200 or not, a body that decodes is returned with a nil
    error, and the status has no part in the outcome. *)
Theorem fetch_other_status a ctx prefix ipAddress resp response :
  transportGives a ctx prefix ipAddress (Some resp, None) ->
  StatusCode resp < 400 \/ 600 <= StatusCode resp ->
  json_Decode_Response (Body resp) Response_zero = (response, None) ->
  fetch a ctx prefix ipAddress = Return response None /\
  (forall status,
     status < 400 \/ 600 <= status ->
     classify (Some (mkHttpResponse status (Body resp)), None) =
     classify (Some resp, None)).
Proof.
  intros Ht Hs Hdec. split.
  - now apply fetch_success_body_decoded with (resp := resp).
  - intros status Hstatus.
    rewrite (classify_successAnswer _ Hs).
    rewrite classify_successAnswer by exact Hstatus.
    reflexivity.
Qed.

(** ** A client made by [New] *)

Lemma fetch_authorized (a : Api) do ctx prefix ipAddress :
  doFunc a = Some do ->
  fetch a ctx prefix ipAddress =
    match url_Parse_error (prefix ++ ipAddress) with
    | Some err => Return Response_zero (Some err)
    | None => classify (do (orBackground ctx) (authorized a (prefix ++ ipAddress)))
    end.
Proof.
  intros Hdo. unfold fetch. rewrite buildRequest_cases.
  destruct (url_Parse_error (prefix ++ ipAddress)); [reflexivity|].
  cbv zeta. now rewrite Hdo.
Qed.

(** X5.  [New] never fails.  Its client is at a pointer no client had, and
    the clients there were stay as they were.  A lookup through it, whatever
    the context, returns the error of a target that does not parse, and
    otherwise hands to [http.DefaultClient.Do] the GET request for the
    prefix followed by the IP string, authorized with the credentials
    [New] was given. *)
Theorem New_lookup (u k : string) (h : Heap) :
  exists p h',
    New u k h = Some (p, h') /\
    deref h p = None /\
    (forall q s, deref h q = Some s -> deref h' q = Some s) /\
    (forall ctx prefix ipAddress,
       fetchAt h' p ctx prefix ipAddress =
         match url_Parse_error (prefix ++ ipAddress) with
         | Some err => Return Response_zero (Some err)
         | None =>
             classify
               (Client_Do http_DefaultClient
                  (mkRequest "GET" (prefix ++ ipAddress)
                     [("Authorization",
                       "Basic " ++ base64_EncodeToString (u ++ ":" ++ k))]))
         end).
Proof.
  set (first := mkApi None u k).
  set (made := mkApi (Some (wrap (Client_Do http_DefaultClient))) u k).
  assert (Hfirst : deref (snd (alloc first h)) (fst (alloc first h)) = Some first)
    by apply deref_alloc_new.
  assert (Hmade : deref (snd (alloc made (snd (alloc first h))))
                    (fst (alloc made (snd (alloc first h)))) = Some made)
    by apply deref_alloc_new.
  exists (fst (alloc made (snd (alloc first h)))),
         (snd (alloc made (snd (alloc first h)))).
  split; [|split; [|split]].
  - unfold New, WithClient, WithClientFunc.
    change (alloc (mkApi None u k) h) with (fst (alloc first h), snd (alloc first h)).
    cbv iota beta. now rewrite Hfirst.
  - simpl. apply nth_error_None. rewrite length_app. apply Nat.le_add_r.
  - intros q s Hq.
    apply (@deref_alloc_old _ made (snd (alloc first h)) q s).
    now apply (@deref_alloc_old _ first h q s).
  - intros ctx prefix ipAddress. unfold fetchAt. rewrite Hmade.
    now rewrite (@fetch_authorized made _ ctx prefix ipAddress eq_refl).
Qed.

(** ** Deriving from a derived client *)

(** X6.  A client derived from a derived client has the credentials of the
    first base and the transport given last.  The three clients are at
    three pointers, each keeps its own transport, and a lookup through the
    last one is a lookup with the base's credentials over the last
    transport. *)
Theorem derive_twice (h : Heap) (api : ApiPtr) (s : Api) (f g : option CtxFunc) :
  deref h api = Some s ->
  exists p h1 q h2,
    WithClientFunc api f h = Some (p, h1) /\
    WithClientFunc p g h1 = Some (q, h2) /\
    deref h2 api = Some s /\
    deref h2 p = Some (mkApi f (userId s) (licenseKey s)) /\
    deref h2 q = Some (mkApi g (userId s) (licenseKey s)) /\
    api <> p /\ p <> q /\ api <> q /\
    (forall ctx prefix ipAddress,
       fetchAt h2 q ctx prefix ipAddress =
       fetch (mkApi g (userId s) (licenseKey s)) ctx prefix ipAddress).
Proof.
  intros Hs.
  destruct (@WithClientFunc_derives _ h api s f Hs) as (p & h1 & Hw1 & Hd1).
  destruct Hd1 as (Hpa & Hpnew & Hp & Hapi1 & Hold1 & _).
  destruct (@WithClientFunc_derives _ h1 p _ g Hp) as (q & h2 & Hw2 & Hd2).
  destruct Hd2 as (Hqp & Hqnew & Hq & Hp2 & Hold2 & _).
  exists p, h1, q, h2. simpl in Hq.
  split; [exact Hw1|]. split; [exact Hw2|].
  split; [apply Hold2; exact Hapi1|]. split; [exact Hp2|]. split; [exact Hq|].
  split; [intros E; apply Hpa; now rewrite E|].
  split; [intros E; apply Hqp; now rewrite E|]. split.
  - intros E. rewrite <- E in Hqnew. rewrite Hapi1 in Hqnew. discriminate.
  - intros ctx prefix ipAddress. unfold fetchAt. now rewrite Hq.
Qed.

(** ** What the header tells apart *)

Lemma base64_EncodeToString_inj (x y : string) :
  base64_EncodeToString x = base64_EncodeToString y -> x = y.
Proof.
  intros H.
  assert (E : Some x = Some y).
  { rewrite <- (base64_roundtrip x), <- (base64_roundtrip y). now rewrite H. }
  now injection E.
Qed.

(** X7.  The requests [fetch] builds for two clients and one target are the
    same exactly when the texts [userId:licenseKey] of the two clients are
    the same: different texts give different headers, and two pairs of
    credentials that differ only in where the colon falls give the same
    request. *)
Theorem request_tells_credentials (a b : Api) prefix ipAddress ra rb :
  buildRequest a prefix ipAddress = inl ra ->
  buildRequest b prefix ipAddress = inl rb ->
  (ra = rb <->
   userId a ++ ":" ++ licenseKey a = userId b ++ ":" ++ licenseKey b).
Proof.
  rewrite !buildRequest_cases.
  destruct (url_Parse_error (prefix ++ ipAddress)); [discriminate|].
  intros Ha Hb. injection Ha as <-. injection Hb as <-.
  unfold authorized. split.
  - intros E. injection E as E. apply base64_EncodeToString_inj. exact E.
  - intros E. now rewrite E.
Qed.

(** ** The three endpoints *)

(** X8.  [Country], [City] and [Insights] hand three requests to the
    transport that differ in the target only: the endpoint of each followed
    by the IP string.  For one IP string the three targets are pairwise
    different. *)
Theorem lookup_targets (a : Api) do ctx ipAddress :
  doFunc a = Some do ->
  (url_Parse_error (countryPrefix ++ ipAddress) = None ->
   Country a ctx ipAddress =
     classify (do (orBackground ctx)
                 (authorized a ("https://geoip.maxmind.com/geoip/v2.1/country/"
                                ++ ipAddress)))) /\
  (url_Parse_error (cityPrefix ++ ipAddress) = None ->
   City a ctx ipAddress =
     classify (do (orBackground ctx)
                 (authorized a ("https://geoip.maxmind.com/geoip/v2.1/city/"
                                ++ ipAddress)))) /\
  (url_Parse_error (insightsPrefix ++ ipAddress) = None ->
   Insights a ctx ipAddress =
     classify (do (orBackground ctx)
                 (authorized a ("https://geoip.maxmind.com/geoip/v2.1/insights/"
                                ++ ipAddress)))) /\
  countryPrefix ++ ipAddress <> cityPrefix ++ ipAddress /\
  cityPrefix ++ ipAddress <> insightsPrefix ++ ipAddress /\
  countryPrefix ++ ipAddress <> insightsPrefix ++ ipAddress.
Proof.
  intros Hdo.
  assert (Hf : forall prefix,
             url_Parse_error (prefix ++ ipAddress) = None ->
             fetch a ctx prefix ipAddress =
               classify (do (orBackground ctx) (authorized a (prefix ++ ipAddress)))).
  { intros prefix Hok. rewrite (@fetch_authorized a do ctx prefix ipAddress Hdo).
    now rewrite Hok. }
  split; [exact (Hf countryPrefix)|]. split; [exact (Hf cityPrefix)|].
  split; [exact (Hf insightsPrefix)|].
  unfold countryPrefix, cityPrefix, insightsPrefix.
  repeat split; intros E; simpl in E; discriminate E.
Qed.

(** ** A client without a transport *)

(** X4.  [WithClientFunc] accepts a nil transport function.  Every lookup
    through the client it then returns panics at the call of the transport,
    unless the target does not parse, in which case the error of the target
    is returned as for any client. *)
Theorem nil_transport_panics (h : Heap) (api : ApiPtr) (s : Api) :
  deref h api = Some s ->
  exists p h',
    WithClientFunc api None h = Some (p, h') /\
    deref h' p = Some (mkApi None (userId s) (licenseKey s)) /\
    (forall ctx prefix ipAddress,
       fetchAt h' p ctx prefix ipAddress =
         match url_Parse_error (prefix ++ ipAddress) with
         | Some err => Return Response_zero (Some err)
         | None => Panic
         end).
Proof.
  intros Hs.
  destruct (@WithClientFunc_derives _ h api s None Hs) as (p & h' & Hw & Hd).
  destruct Hd as (_ & _ & Hp & _).
  exists p, h'. split; [exact Hw|]. split; [exact Hp|].
  intros ctx prefix ipAddress. unfold fetchAt. rewrite Hp.
  unfold fetch. rewrite buildRequest_cases.
  destruct (url_Parse_error (prefix ++ ipAddress)); reflexivity.
Qed.

(** ** A client made by [WithClient] *)

(** X9.  A lookup through the client [WithClient] derives from a base is
    the blocking [Do] of the given HTTP client on the request authorized
    with the credentials of the base; the context of the call has no part
    in it, and a target that does not parse never reaches [Do]. *)
Theorem WithClient_lookup (h : Heap) (api : ApiPtr) (s : Api) (client : Client) :
  deref h api = Some s ->
  exists p h',
    WithClient api client h = Some (p, h') /\
    (forall ctx prefix ipAddress,
       fetchAt h' p ctx prefix ipAddress =
         match url_Parse_error (prefix ++ ipAddress) with
         | Some err => Return Response_zero (Some err)
         | None =>
             classify (Client_Do client (authorized s (prefix ++ ipAddress)))
         end).
Proof.
  intros Hs.
  destruct (@WithClientFunc_derives _ h api s (Some (wrap (Client_Do client))) Hs)
    as (p & h' & Hw & Hd).
  destruct Hd as (_ & _ & Hp & _).
  exists p, h'. split; [exact Hw|].
  intros ctx prefix ipAddress. unfold fetchAt. rewrite Hp.
  rewrite (@fetch_authorized
             (mkApi (Some (wrap (Client_Do client))) (userId s) (licenseKey s))
             (wrap (Client_Do client)) ctx prefix ipAddress eq_refl).
  reflexivity.
Qed.

End More.

(** ** The properties above on the two instances *)

(** An IP string with a tab in front, which [url.Parse] refuses. *)
Definition tabbedAddress : string := String (ascii_of_N 9) "1.2.3.4".

Lemma fetch_bad_target_witness :
  fetch (Mem.stub 200 "{}") nilContext cityPrefix tabbedAddress =
    Return Response_zero
      (Some (libError "net/url: invalid control character in URL")) /\
  (forall h p,
     @fetchAt Mem.externals h p nilContext cityPrefix tabbedAddress =
       Return Response_zero
         (Some (libError "net/url: invalid control character in URL"))).
Proof.
  apply (@fetch_bad_target Mem.externals (Mem.stub 200 "{}") nilContext
           cityPrefix tabbedAddress
           (libError "net/url: invalid control character in URL")).
  reflexivity.
Defined.

Lemma fetch_error_status_witness :
  @fetch Broken.externals (Broken.client (Broken.broken 503)) nilContext
     cityPrefix "1.2.3.4" =
    Return Response_zero (Some Broken.resetByPeer).
Proof.
  apply (@fetch_error_status Broken.externals
           (Broken.client (Broken.broken 503)) nilContext cityPrefix "1.2.3.4"
           (mkHttpResponse 503 (inr Broken.resetByPeer))).
  - exists (@authorized Broken.externals (Broken.client (Broken.broken 503))
              (cityPrefix ++ "1.2.3.4")), (Broken.broken 503).
    split; [reflexivity|]. split; reflexivity.
  - simpl. lia.
Defined.

Lemma fetch_other_status_witness :
  fetch (Mem.stub 302 Mem.countryBody) nilContext cityPrefix "1.2.3.4" =
    Return [("country", Json.Object [("iso_code", Json.Str "US")])] None /\
  (forall status,
     status < 400 \/ 600 <= status ->
     @classify Mem.externals (Some (mkHttpResponse status Mem.countryBody), None) =
     @classify Mem.externals (Some (mkHttpResponse 302 Mem.countryBody), None)).
Proof.
  apply (@fetch_other_status Mem.externals
           (Mem.stub 302 Mem.countryBody) nilContext cityPrefix "1.2.3.4"
           (mkHttpResponse 302 Mem.countryBody)).
  - apply stub_gives.
  - left. simpl. lia.
  - reflexivity.
Defined.

Lemma derive_twice_witness :
  exists p h1 q h2,
    WithClientFunc (Some 0%nat) (Some (Mem.failing Mem.unreachable))
      [Mem.stub 200 "{}"] = Some (p, h1) /\
    WithClientFunc p (Some (Mem.answer 404 Mem.notFoundBody)) h1 = Some (q, h2) /\
    deref h2 q =
      Some (mkApi (Some (Mem.answer 404 Mem.notFoundBody)) "42" "secret").
Proof.
  destruct (@derive_twice Mem.externals [Mem.stub 200 "{}"] (Some 0%nat)
              (Mem.stub 200 "{}") (Some (Mem.failing Mem.unreachable))
              (Some (Mem.answer 404 Mem.notFoundBody)) eq_refl)
    as (p & h1 & q & h2 & Hw1 & Hw2 & _ & _ & Hq & _).
  exists p, h1, q, h2. split; [exact Hw1|]. split; [exact Hw2|exact Hq].
Defined.

Lemma request_tells_credentials_witness :
  @authorized Mem.externals (mkApi None "a:b" "c") (cityPrefix ++ "1.2.3.4") =
  @authorized Mem.externals (mkApi None "a" "b:c") (cityPrefix ++ "1.2.3.4").
Proof.
  apply (@request_tells_credentials Mem.externals
           (mkApi None "a:b" "c") (mkApi None "a" "b:c") cityPrefix "1.2.3.4").
  - reflexivity.
  - reflexivity.
  - reflexivity.
Defined.

Lemma lookup_targets_witness :
  Country (Mem.stub 200 "{}") nilContext "1.2.3.4" =
    classify
      (Mem.answer 200 "{}" context_Background
         (mkRequest "GET" "https://geoip.maxmind.com/geoip/v2.1/country/1.2.3.4"
            [("Authorization", "Basic NDI6c2VjcmV0")])) /\
  Insights (Mem.stub 200 "{}") nilContext "1.2.3.4" =
    classify
      (Mem.answer 200 "{}" context_Background
         (mkRequest "GET" "https://geoip.maxmind.com/geoip/v2.1/insights/1.2.3.4"
            [("Authorization", "Basic NDI6c2VjcmV0")])).
Proof.
  destruct (@lookup_targets Mem.externals (Mem.stub 200 "{}")
              (Mem.answer 200 "{}") nilContext "1.2.3.4" eq_refl)
    as (Hcountry & _ & Hinsights & _).
  split; [exact (Hcountry eq_refl)|exact (Hinsights eq_refl)].
Defined.

Lemma nil_transport_panics_witness :
  exists p h',
    WithClientFunc (Some 0%nat) None [Mem.stub 200 "{}"] = Some (p, h') /\
    fetchAt h' p nilContext cityPrefix "1.2.3.4" = Panic /\
    fetchAt h' p nilContext cityPrefix tabbedAddress =
      Return Response_zero
        (Some (libError "net/url: invalid control character in URL")).
Proof.
  destruct (@nil_transport_panics Mem.externals [Mem.stub 200 "{}"] (Some 0%nat)
              (Mem.stub 200 "{}") eq_refl)
    as (p & h' & Hw & _ & Hlookup).
  exists p, h'. split; [exact Hw|]. split.
  - exact (Hlookup nilContext cityPrefix "1.2.3.4").
  - exact (Hlookup nilContext cityPrefix tabbedAddress).
Defined.

Lemma WithClient_lookup_witness :
  exists p h',
    WithClient (Some 0%nat) Mem.noNetwork [Mem.stub 200 "{}"] = Some (p, h') /\
    fetchAt h' p (Some (cancelCtx backgroundCtx 1)) cityPrefix "1.2.3.4" =
      Return Response_zero (Some Mem.unreachable).
Proof.
  destruct (@WithClient_lookup Mem.externals [Mem.stub 200 "{}"] (Some 0%nat)
              (Mem.stub 200 "{}") Mem.noNetwork eq_refl)
    as (p & h' & Hw & Hlookup).
  exists p, h'. split; [exact Hw|].
  exact (Hlookup (Some (cancelCtx backgroundCtx 1)) cityPrefix "1.2.3.4").
Defined.
